(** * verify_migration.py: the browser smoke test, as an effect script

    [run] of [jules-scratch/verification/verify_migration.py] is a straight
    line of calls into the Playwright library and to [print].  It is embedded
    here as a term of a small free monad over those calls.  What the outside
    world (browser, target application, file system, console) answers to a call
    is not decided by the script: an environment gives the answer, either a
    value or a raised exception, from the history of the calls issued so far.
    The script has no [try], so an exception ends the run where it is raised.
    The module body calls [run] once, with the object that [sync_playwright()]
    yields; that object is the argument of [run] here. *)

From Stdlib Require Import List String Bool Arith Lia.
Import ListNotations.
Open Scope string_scope.
Open Scope list_scope.

(** ** The calls the script makes *)

Module Playwright.

(** Handles of the objects the library hands out. *)
Definition playwright := nat.
Definition browser := nat.
Definition page := nat.

(** What a library call or [print] may raise. *)
Inductive exn : Type :=
| TimeoutError (msg : string)
| AssertionError (msg : string)
| Error (msg : string).

(** [page.get_by_role(role, name=...)] builds a locator; nothing is sent to
    the browser until the locator is used. *)
Record locator : Type := Locator {
  loc_page : page;
  loc_role : string;
  loc_name : string
}.

Definition get_by_role (p : page) (role name : string) : locator :=
  Locator p role name.

Inductive call : Type :=
| Launch (pw : playwright) (headless : bool)
    (* playwright.chromium.launch(headless=...) *)
| NewPage (b : browser)                        (* browser.new_page() *)
| Goto (p : page) (url : string)               (* page.goto(url) *)
| ToBeVisible (l : locator)                    (* expect(l).to_be_visible() *)
| Screenshot (p : page) (path : string)        (* page.screenshot(path=...) *)
| Print (msg : string)                         (* print(msg) *)
| Close (b : browser).                         (* browser.close() *)

(** The type of the value a call returns when it does not raise. *)
Definition reply (c : call) : Type :=
  match c with
  | Launch _ _ => browser
  | NewPage _ => page
  | _ => unit
  end.

Inductive answer (A : Type) : Type :=
| Ok (v : A)
| Raise (e : exn).
Arguments Ok {A} v.
Arguments Raise {A} e.

(** Scripts: return a value, or issue a call and go on with its reply. *)
Inductive script (A : Type) : Type :=
| Ret (a : A)
| Call (c : call) (k : reply c -> script A).
Arguments Ret {A} a.
Arguments Call {A} c k.

Fixpoint bind {A B : Type} (s : script A) (f : A -> script B) : script B :=
  match s with
  | Ret a => f a
  | Call c k => Call c (fun v => bind (k v) f)
  end.

Definition perform (c : call) : script (reply c) := Call c (fun v => Ret v).

(** How a run ends. *)
Inductive outcome (A : Type) : Type :=
| Returned (a : A)
| Raised (e : exn).
Arguments Returned {A} a.
Arguments Raised {A} e.

Record run_result (A : Type) : Type := RunResult {
  calls : list call;      (* every call issued, oldest first *)
  result : outcome A
}.
Arguments RunResult {A} calls result.
Arguments calls {A} r.
Arguments result {A} r.

(** The environment answers a call from the calls issued before it. *)
Definition env : Type := list call -> forall c : call, answer (reply c).

Fixpoint exec {A : Type} (w : env) (h : list call) (s : script A)
  : run_result A :=
  match s with
  | Ret a => RunResult h (Returned a)
  | Call c k =>
      match w h c with
      | Ok v => exec w (h ++ [c]) (k v)
      | Raise e => RunResult (h ++ [c]) (Raised e)
      end
  end.

Definition raises {A : Type} (a : answer A) : bool :=
  match a with Ok _ => false | Raise _ => true end.

End Playwright.

Export Playwright.

Declare Scope script_scope.
Delimit Scope script_scope with script.
Notation "x <- c ;; k" := (bind c (fun x => k))
  (at level 61, c at next level, right associativity) : script_scope.
Notation "c ;; k" := (bind c (fun _ => k))
  (at level 61, right associativity) : script_scope.

(** ** The script *)

Module VerifyMigration.

Local Open Scope script_scope.

Definition run (playwright : playwright) : script unit :=
  browser <- perform (Launch playwright true) ;;
  page <- perform (NewPage browser) ;;
  (* Verify Login Page *)
  perform (Goto page "http://localhost:3000/login") ;;
  perform (ToBeVisible (get_by_role page "heading" "Welcome to WealthLog")) ;;
  perform (Screenshot page "jules-scratch/verification/login-page.png") ;;
  perform (Print "Screenshot of login page taken.") ;;
  (* Verify Dashboard Page (will redirect to login if not authenticated,
     which is fine for this test) *)
  perform (Goto page "http://localhost:3000/dashboard") ;;
  (* The MainLayout will show a loading screen, then redirect to login.
     Let's wait for the login page to appear again. *)
  perform (ToBeVisible (get_by_role page "heading" "Welcome to WealthLog")) ;;
  perform (Print "Redirected to login page from dashboard as expected.") ;;
  (* Let's also try to verify a page that is public and does not require
     login *)
  perform (Goto page "http://localhost:3000/landing") ;;
  perform (ToBeVisible (get_by_role page "heading" "Dashboard")) ;;
  perform (Screenshot page "jules-scratch/verification/dashboard-page.png") ;;
  perform (Print "Screenshot of dashboard page taken.") ;;
  perform (Close browser) ;;
  Ret tt.

(** A run of the procedure from an empty history. *)
Definition run_in (w : env) (pw : playwright) : run_result unit :=
  exec w [] (run pw).
Arguments run_in : simpl never.

End VerifyMigration.

Export VerifyMigration.

(** ** Vocabulary of the properties *)

(** The calls of the procedure in program order, for a browser handle [b] and
    a page handle [p] handed out by the environment. *)
Definition procedure (pw : playwright) (b : browser) (p : page) : list call :=
  [ Launch pw true;
    NewPage b;
    Goto p "http://localhost:3000/login";
    ToBeVisible (get_by_role p "heading" "Welcome to WealthLog");
    Screenshot p "jules-scratch/verification/login-page.png";
    Print "Screenshot of login page taken.";
    Goto p "http://localhost:3000/dashboard";
    ToBeVisible (get_by_role p "heading" "Welcome to WealthLog");
    Print "Redirected to login page from dashboard as expected.";
    Goto p "http://localhost:3000/landing";
    ToBeVisible (get_by_role p "heading" "Dashboard");
    Screenshot p "jules-scratch/verification/dashboard-page.png";
    Print "Screenshot of dashboard page taken.";
    Close b ].

(** The [i]-th call of a run, and whether the environment let it succeed.
    The environment saw the [i] calls before it. *)
Definition issued (r : run_result unit) (i : nat) (c : call) : Prop :=
  nth_error (calls r) i = Some c.

Definition passed (w : env) (r : run_result unit) (i : nat) (c : call) : Prop :=
  raises (w (firstn i (calls r)) c) = false.

(** No call of the run raises. *)
Definition success_path (w : env) (pw : playwright) : Prop :=
  forall i c, issued (run_in w pw) i c -> passed w (run_in w pw) i c.

Definition is_goto (c : call) : bool :=
  match c with Goto _ _ => true | _ => false end.

Definition is_assertion (c : call) : bool :=
  match c with ToBeVisible _ => true | _ => false end.

Definition is_screenshot (c : call) : bool :=
  match c with Screenshot _ _ => true | _ => false end.

Definition is_launch (c : call) : bool :=
  match c with Launch _ _ => true | _ => false end.

Definition is_new_page (c : call) : bool :=
  match c with NewPage _ => true | _ => false end.

Definition is_close (c : call) : bool :=
  match c with Close _ => true | _ => false end.

(** The page a call operates on, when it operates on one. *)
Definition page_of (c : call) : option page :=
  match c with
  | Goto p _ => Some p
  | ToBeVisible l => Some (loc_page l)
  | Screenshot p _ => Some p
  | _ => None
  end.

(** The browser a call operates on, when it names one. *)
Definition browser_of (c : call) : option browser :=
  match c with
  | NewPage b => Some b
  | Close b => Some b
  | _ => None
  end.

Definition screenshot_paths (l : list call) : list string :=
  flat_map (fun c => match c with Screenshot _ path => [path] | _ => [] end) l.

(** ** A model target application, to run the script against *)

Module Site.

(** What the application shows for a requested URL: the URL the page ends
    at once redirects have settled, and the (role, name) pairs visible. *)
Record view : Type := View {
  final_url : string;
  shown : list (string * string)
}.

Definition site : Type := string -> view.

(** The URL last requested on the page. *)
Fixpoint requested (h : list call) : option string :=
  match h with
  | [] => None
  | c :: h' =>
      match requested h' with
      | Some u => Some u
      | None => match c with Goto _ u => Some u | _ => None end
      end
  end.

(** The address the page is at after the calls [h]. *)
Definition location (app : site) (h : list call) : option string :=
  option_map (fun u => final_url (app u)) (requested h).

Definition visible (app : site) (u : string) (role name : string) : bool :=
  existsb (fun rn => String.eqb (fst rn) role && String.eqb (snd rn) name)
          (shown (app u)).

(** A browser in front of [app]: every call succeeds except an assertion
    on something the current view does not show. *)
Definition browsing (app : site) : env :=
  fun h c =>
    match c return answer (reply c) with
    | Launch _ _ => Ok 1
    | NewPage _ => Ok 1
    | ToBeVisible l =>
        match requested h with
        | Some u =>
            if visible app u (loc_role l) (loc_name l) then Ok tt
            else Raise (AssertionError "Locator expected to be visible")
        | None => Raise (AssertionError "Locator expected to be visible")
        end
    | _ => Ok tt
    end.

(** The application as the script expects it. *)
Definition wealthlog : site :=
  fun u =>
    if String.eqb u "http://localhost:3000/landing"
    then View u [("heading", "Dashboard")]
    else View "http://localhost:3000/login"
              [("heading", "Welcome to WealthLog")].

(** An application whose dashboard route does not redirect, and shows the
    login heading in place. *)
Definition no_redirect : site :=
  fun u =>
    if String.eqb u "http://localhost:3000/landing"
    then View u [("heading", "Dashboard")]
    else View u [("heading", "Welcome to WealthLog")].

(** An application without the landing route. *)
Definition no_landing : site :=
  fun u => View "http://localhost:3000/login"
                [("heading", "Welcome to WealthLog")].

(** Nothing listens at the application's address: the browser starts,
    and every navigation is refused. *)
Definition offline : env :=
  fun h c =>
    match c return answer (reply c) with
    | Launch _ _ => Ok 1
    | NewPage _ => Ok 1
    | Goto _ _ => Raise (Error "net::ERR_CONNECTION_REFUSED")
    | _ => Ok tt
    end.

End Site.

(** ** The module body

    [with sync_playwright() as playwright: run(playwright)], with the
    meaning Python gives the [with] statement: the manager is made and
    entered; the body runs with what [__enter__] returned; [__exit__] is then
    called, with the exception of the body when it raised one, and that
    exception goes on unless [__exit__] returns a true value.  An exception of
    [sync_playwright()], [__enter__] or [__exit__] itself ends the module. *)

Module Toplevel.

Definition manager := nat.

Inductive event : Type :=
| SyncPlaywright                          (* sync_playwright() *)
| Enter (m : manager)                     (* m.__enter__() *)
| Lib (c : call)                          (* a call made by the body *)
| Exit (m : manager) (exc : option exn).  (* m.__exit__(...) *)

(** [__exit__] is read for the truth of what it returns only. *)
Definition event_reply (e : event) : Type :=
  match e with
  | SyncPlaywright => manager
  | Enter _ => playwright
  | Lib c => reply c
  | Exit _ _ => bool
  end.

(** The world outside the module answers an event from the events before. *)
Definition world : Type :=
  list event -> forall e : event, answer (event_reply e).

(** The environment of a body that starts after the events [pre]. *)
Definition inside (W : world) (pre : list event) : env :=
  fun h c => W (pre ++ map Lib h) (Lib c).

Record module_result : Type := ModuleResult {
  events : list event;      (* every event, oldest first *)
  ending : outcome unit
}.

Definition with_as (W : world) (pre : list event) (m : manager)
           (body : playwright -> script unit) : module_result :=
  match W pre (Enter m) with
  | Raise e => ModuleResult (pre ++ [Enter m]) (Raised e)
  | Ok v =>
      let r := exec (inside W (pre ++ [Enter m])) [] (body v) in
      let h := (pre ++ [Enter m]) ++ map Lib (calls r) in
      match result r with
      | Returned _ =>
          match W h (Exit m None) with
          | Ok _ => ModuleResult (h ++ [Exit m None]) (Returned tt)
          | Raise e' => ModuleResult (h ++ [Exit m None]) (Raised e')
          end
      | Raised e =>
          match (W h (Exit m (Some e)) : answer bool) with
          | Ok true => ModuleResult (h ++ [Exit m (Some e)]) (Returned tt)
          | Ok false => ModuleResult (h ++ [Exit m (Some e)]) (Raised e)
          | Raise e' => ModuleResult (h ++ [Exit m (Some e)]) (Raised e')
          end
      end
  end.

Definition main (W : world) : module_result :=
  match W [] SyncPlaywright with
  | Raise e => ModuleResult [SyncPlaywright] (Raised e)
  | Ok m => with_as W [SyncPlaywright] m run
  end.

(** The calls of the body among the events. *)
Definition lib_calls (h : list event) : list call :=
  flat_map (fun e => match e with Lib c => [c] | _ => [] end) h.

Definition is_exit (e : event) : bool :=
  match e with Exit _ _ => true | _ => false end.

(** A world made of an environment for the body and of a manager that
    starts, and whose [__exit__] returns [suppress]. *)
Definition world_of (w : env) (suppress : bool) : world :=
  fun h e =>
    match e return answer (event_reply e) with
    | SyncPlaywright => Ok 0
    | Enter _ => Ok 0
    | Lib c => w (lib_calls h) c
    | Exit _ _ => Ok suppress
    end.

(** A machine on which Playwright cannot start. *)
Definition no_driver : world :=
  fun h e =>
    match e return answer (event_reply e) with
    | SyncPlaywright => Ok 0
    | Enter _ => Raise (Error "Executable doesn't exist")
    | Lib c => Site.offline (lib_calls h) c
    | Exit _ _ => Ok false
    end.

End Toplevel.

Export Toplevel.

(** The messages a list of calls prints. *)
Definition printed (l : list call) : list string :=
  flat_map (fun c => match c with Print msg => [msg] | _ => [] end) l.

(** What a call shows outside the script, handles left out: the URL of a
    navigation, the role and name of an assertion, the path of a screenshot,
    the message printed. *)
Inductive action : Type :=
| Launches (headless : bool)
| OpensPage
| Navigates (url : string)
| Asserts (role name : string)
| Shoots (path : string)
| Prints (msg : string)
| Closes.

Definition action_of (c : call) : action :=
  match c with
  | Launch _ headless => Launches headless
  | NewPage _ => OpensPage
  | Goto _ url => Navigates url
  | ToBeVisible l => Asserts (loc_role l) (loc_name l)
  | Screenshot _ path => Shoots path
  | Print msg => Prints msg
  | Close _ => Closes
  end.

Definition returned {A : Type} (o : outcome A) : bool :=
  match o with Returned _ => true | Raised _ => false end.

(** The environment [w], handing out the browser [b] and the page [p]. *)
Definition handing_out (b : browser) (p : page) (w : env) : env :=
  fun h c =>
    match c return answer (reply c) -> answer (reply c) with
    | Launch _ _ =>
        fun a => match a with Ok _ => Ok b | Raise e => Raise e end
    | NewPage _ =>
        fun a => match a with Ok _ => Ok p | Raise e => Raise e end
    | _ => fun a => a
    end (w h c).

(** ** General facts about running a script *)

Section Exec.

Variable A : Type.

(** A run only adds calls at the end of the history. *)
Lemma exec_extends (s : script A) :
  forall (w : env) (h : list call),
    exists t, calls (exec w h s) = h ++ t.
Proof.
  induction s as [a | c k IH]; intros w h; simpl.
  - exists []. now rewrite app_nil_r.
  - destruct (w h c) as [v | e].
    + destruct (IH v w (h ++ [c])) as [t Ht].
      exists (c :: t). rewrite Ht, <- app_assoc. reflexivity.
    + exists [c]. reflexivity.
Qed.

(** Two environments that answer alike along the run of the first give
    the same run. *)
Lemma exec_agree (s : script A) :
  forall (w1 w2 : env) (h : list call),
    (forall i c, List.length h <= i ->
                 nth_error (calls (exec w1 h s)) i = Some c ->
                 w1 (firstn i (calls (exec w1 h s))) c
                 = w2 (firstn i (calls (exec w1 h s))) c) ->
    exec w1 h s = exec w2 h s.
Proof.
  induction s as [a | c k IH]; intros w1 w2 h Hagree; simpl in *.
  - reflexivity.
  - assert (Hc : w1 h c = w2 h c).
    { specialize (Hagree (List.length h) c (le_n _)).
      destruct (w1 h c) as [v | e] eqn:E; simpl in Hagree; rewrite <- E.
      - destruct (exec_extends (k v) w1 (h ++ [c])) as [t Ht].
        rewrite Ht, <- app_assoc in Hagree. simpl in Hagree.
        rewrite nth_error_app2, Nat.sub_diag in Hagree by lia.
        rewrite firstn_app, Nat.sub_diag, firstn_all, app_nil_r in Hagree.
        now apply Hagree.
      - rewrite nth_error_app2, Nat.sub_diag in Hagree by lia.
        rewrite firstn_app, Nat.sub_diag, firstn_all, app_nil_r in Hagree.
        now apply Hagree. }
    rewrite <- Hc.
    destruct (w1 h c) as [v | e]; [| reflexivity].
    apply IH. intros i c' Hi Hnth. apply Hagree; [| exact Hnth].
    rewrite List.length_app in Hi. simpl in Hi. lia.
Qed.

End Exec.

(** ** The shape of every run of the procedure *)

(** Split on the environment's answer to the next call of the run. *)
Ltac next_answer :=
  match goal with
  | |- context [match ?w ?h ?c with Ok _ => _ | Raise _ => _ end] =>
      let E := fresh "E" in
      destruct (w h c) eqn:E; cbn [app]
  end.

(** Go through the positions of a list of at most fifteen calls. *)
Ltac by_position i :=
  do 15 (try (destruct i as [| i]; [cbn; intros; try lia | ]));
  cbn; intros; try lia; try discriminate.

(** A call the environment answered with a value did not raise. *)
Ltac passed_by_answer :=
  try match goal with
      | H : Some _ = Some _ |- _ => injection H as <-
      end;
  match goal with
  | E : ?w ?h ?c = Ok _ |- raises (?w ?h ?c) = false => rewrite E; reflexivity
  end.

Ltac raised_here :=
  right; eexists; eexists; repeat split; cbn; eauto.

(** A run issues the calls of [procedure] in order, with the handles the
    environment gave, up to and including the first call that raises; the
    calls before that one passed. *)
Lemma run_in_shape (w : env) (pw : playwright) :
  exists b p n,
    n < 14 /\
    calls (run_in w pw) = firstn (S n) (procedure pw b p) /\
    (forall i c, i < n -> nth_error (procedure pw b p) i = Some c ->
                 raises (w (firstn i (procedure pw b p)) c) = false) /\
    (0 < n -> w [] (Launch pw true) = Ok b) /\
    (1 < n -> w [Launch pw true] (NewPage b) = Ok p) /\
    ((n = 13 /\ result (run_in w pw) = Returned tt /\
      raises (w (firstn 13 (procedure pw b p)) (Close b)) = false)
     \/ (exists c e, nth_error (procedure pw b p) n = Some c /\
                     w (firstn n (procedure pw b p)) c = Raise e /\
                     result (run_in w pw) = Raised e)).
Proof.
  unfold run_in, run. cbn.
  next_answer; [| exists 0, 0, 0; repeat split; try lia; raised_here ].
  next_answer; [| exists v, 0, 1; repeat split; try lia; eauto;
                  [ intros i c Hi; by_position i; passed_by_answer
                  | raised_here ] ].
  repeat next_answer.
  all: match goal with
    | |- context [RunResult ?l _] =>
        let n := eval cbv in (pred (List.length l)) in
        exists v, v0, n
    end.
  all: (split; [lia |]); (split; [reflexivity |]).
  all: (split; [ intros i c Hi; by_position i; passed_by_answer |]).
  all: (split; [intros _; first [reflexivity | assumption] |]).
  all: (split; [intros _; first [reflexivity | assumption] |]).
  all: first [ left; repeat split; passed_by_answer
          | raised_here ].
Qed.

(** ** Reading a run through its shape *)

Lemma issued_firstn (l : list call) (n i : nat) (c : call) :
  nth_error (firstn (S n) l) i = Some c <->
  i <= n /\ nth_error l i = Some c.
Proof.
  rewrite nth_error_firstn.
  destruct (Nat.ltb_spec i (S n)); split.
  - intros H0. split; [lia | exact H0].
  - intros [_ H0]. exact H0.
  - discriminate.
  - intros [Hi _]. lia.
Qed.

Lemma history_firstn (l : list call) (n i : nat) :
  i <= n -> firstn i (firstn (S n) l) = firstn i l.
Proof.
  intros Hi. rewrite firstn_firstn. f_equal. lia.
Qed.

Lemma procedure_length (pw : playwright) (b : browser) (p : page) :
  List.length (procedure pw b p) = 14.
Proof. reflexivity. Qed.

(** The run as the properties below read it: which calls it issued, which of
    them passed, and how it ended. *)
Lemma run_in_view (w : env) (pw : playwright) :
  exists b p n,
    n < 14 /\
    calls (run_in w pw) = firstn (S n) (procedure pw b p) /\
    (forall i c, issued (run_in w pw) i c <->
                 i <= n /\ nth_error (procedure pw b p) i = Some c) /\
    (forall i c, i < n -> issued (run_in w pw) i c ->
                 passed w (run_in w pw) i c) /\
    (forall i c, issued (run_in w pw) i c -> passed w (run_in w pw) i c ->
                 i < 13 -> i < n) /\
    (0 < n -> w [] (Launch pw true) = Ok b) /\
    (1 < n -> w [Launch pw true] (NewPage b) = Ok p) /\
    ((n = 13 /\ result (run_in w pw) = Returned tt /\
      passed w (run_in w pw) 13 (Close b))
     \/ (exists c e, issued (run_in w pw) n c /\
                     w (firstn n (calls (run_in w pw))) c = Raise e /\
                     result (run_in w pw) = Raised e)).
Proof.
  destruct (run_in_shape w pw)
    as (b & p & n & Hn & Hcalls & Hpassed & Hb & Hp & Hend).
  exists b, p, n. unfold issued, passed. rewrite Hcalls.
  split; [exact Hn |]. split; [reflexivity |].
  split; [intros i c; apply issued_firstn |].
  split.
  { intros i c Hi Hc. rewrite history_firstn by lia.
    apply issued_firstn in Hc. now apply Hpassed. }
  split.
  { intros i c Hc Hok Hi. apply issued_firstn in Hc. destruct Hc as [Hle Hc].
    destruct (Nat.eq_dec i n) as [-> | Hne]; [| lia].
    destruct Hend as [(-> & _) | (c' & e & Hc' & Hraise & _)]; [lia |].
    rewrite Hc in Hc'. injection Hc' as <-.
    rewrite history_firstn, Hraise in Hok by lia. discriminate. }
  split; [exact Hb |]. split; [exact Hp |].
  destruct Hend as [(-> & Hres & Hclose) | (c & e & Hc & Hraise & Hres)].
  - left. rewrite history_firstn by lia. easy.
  - right. exists c, e. rewrite history_firstn by lia.
    repeat split; try assumption. apply issued_firstn. easy.
Qed.

(** ** Proof steps for positions of the procedure *)

(** Find the position of a call of the procedure: [H] says that the call at
    position [i] of a list of at most fifteen calls is a given one. *)
Ltac at_position i H :=
  do 15 (try (destruct i as [| i];
              [ cbn in H;
                first [ discriminate H
                      | solve [exfalso; lia]
                      | injection H; clear H; intros; subst ]
              | ]));
  try solve [cbn in H; discriminate H];
  try solve [exfalso; lia].

(** A call of the procedure at a position the run reached was issued. *)
Ltac issued_here Hissued :=
  apply Hissued; split; [lia | reflexivity].


(** ** Runs against the model applications *)

Example run_against_wealthlog :
  run_in (Site.browsing Site.wealthlog) 0
  = RunResult (procedure 0 1 1) (Returned tt).
Proof. reflexivity. Qed.

Example run_against_no_landing :
  run_in (Site.browsing Site.no_landing) 0
  = RunResult (firstn 11 (procedure 0 1 1))
              (Raised (AssertionError "Locator expected to be visible")).
Proof. reflexivity. Qed.

Example run_offline :
  run_in Site.offline 0
  = RunResult [ Launch 0 true; NewPage 1;
                Goto 1 "http://localhost:3000/login" ]
              (Raised (Error "net::ERR_CONNECTION_REFUSED")).
Proof. reflexivity. Qed.

Lemma wealthlog_success_path :
  success_path (Site.browsing Site.wealthlog) 0.
Proof.
  intros i c. unfold issued, passed, run_in.
  by_position i;
    match goal with
    | H : Some _ = Some _ |- _ => injection H as <-
    end; reflexivity.
Qed.

(** A run gets as far as the environment lets it: when the first [k] calls
    pass, a call is issued at position [k]. *)
Lemma run_reaches (w : env) (pw : playwright) (k : nat) :
  k <= 13 ->
  (forall i c, i < k -> issued (run_in w pw) i c ->
               passed w (run_in w pw) i c) ->
  exists c, issued (run_in w pw) k c.
Proof.
  intros Hk Hok.
  destruct (run_in_view w pw)
    as (b & p & n & Hn & Hcalls & Hissued & _ & Hnext & _ & _ & _).
  assert (Hkn : k <= n).
  { clear Hcalls. induction k as [| k IH]; [lia |].
    assert (Hle : k <= n).
    { apply IH; [lia |]. intros i c Hi. apply Hok. lia. }
    destruct (nth_error (procedure pw b p) k) as [c |] eqn:Hc.
    - assert (Hic : issued (run_in w pw) k c)
        by (apply Hissued; split; assumption).
      assert (k < n); [| lia].
      apply (Hnext k c Hic); [| lia]. apply Hok; [lia | exact Hic].
    - apply nth_error_None in Hc. rewrite procedure_length in Hc. lia. }
  destruct (nth_error (procedure pw b p) k) as [c |] eqn:Hc.
  - exists c. apply Hissued. split; assumption.
  - apply nth_error_None in Hc. rewrite procedure_length in Hc. lia.
Qed.

(** ** The success path *)

(** C1.  When no call of the run raises (the success path: every navigation
    and every assertion succeeds, and so does every other call), the run
    returns normally after exactly these fourteen calls, in this order:
    launch a headless browser, open one page, go to the login URL, assert
    the heading "Welcome to WealthLog", take the login screenshot, print;
    go to the dashboard URL, assert the same heading, print; go to the
    landing URL, assert the heading "Dashboard", take the second screenshot,
    print; close the browser.  Three of the calls are navigations. *)
Theorem run_success_sequence (w : env) (pw : playwright) :
  success_path w pw ->
  exists b p,
    run_in w pw =
      RunResult
        [ Launch pw true;
          NewPage b;
          Goto p "http://localhost:3000/login";
          ToBeVisible (get_by_role p "heading" "Welcome to WealthLog");
          Screenshot p "jules-scratch/verification/login-page.png";
          Print "Screenshot of login page taken.";
          Goto p "http://localhost:3000/dashboard";
          ToBeVisible (get_by_role p "heading" "Welcome to WealthLog");
          Print "Redirected to login page from dashboard as expected.";
          Goto p "http://localhost:3000/landing";
          ToBeVisible (get_by_role p "heading" "Dashboard");
          Screenshot p "jules-scratch/verification/dashboard-page.png";
          Print "Screenshot of dashboard page taken.";
          Close b ]
        (Returned tt)
    /\ List.length (filter is_goto (calls (run_in w pw))) = 3.
Proof.
  intros Hok.
  destruct (run_in_view w pw)
    as (b & p & n & Hn & Hcalls & Hissued & _ & _ & _ & _ & Hend).
  exists b, p.
  destruct Hend as [(-> & Hres & _) | (c & e & Hc & Hraise & _)].
  - rewrite Hcalls. destruct (run_in w pw) as [cs r].
    simpl in *. subst cs r. split; reflexivity.
  - apply Hok in Hc. unfold passed in Hc.
    rewrite Hraise in Hc. discriminate.
Qed.

(** The run against the model application is on the success path. *)
Lemma run_success_sequence_witness :
  success_path (Site.browsing Site.wealthlog) 0 /\
  exists b p,
    run_in (Site.browsing Site.wealthlog) 0 =
      RunResult
        [ Launch 0 true;
          NewPage b;
          Goto p "http://localhost:3000/login";
          ToBeVisible (get_by_role p "heading" "Welcome to WealthLog");
          Screenshot p "jules-scratch/verification/login-page.png";
          Print "Screenshot of login page taken.";
          Goto p "http://localhost:3000/dashboard";
          ToBeVisible (get_by_role p "heading" "Welcome to WealthLog");
          Print "Redirected to login page from dashboard as expected.";
          Goto p "http://localhost:3000/landing";
          ToBeVisible (get_by_role p "heading" "Dashboard");
          Screenshot p "jules-scratch/verification/dashboard-page.png";
          Print "Screenshot of dashboard page taken.";
          Close b ]
        (Returned tt)
    /\ List.length
         (filter is_goto (calls (run_in (Site.browsing Site.wealthlog) 0))) = 3.
Proof.
  split; [exact wealthlog_success_path |].
  exact (run_success_sequence _ _ wealthlog_success_path).
Defined.

(** ** Failure *)

(** C2.  Whatever call of the run raises (a navigation, an assertion, or any
    other), the run ends there with that exception: the raising call is the
    last call issued, so none of the later screenshots, messages and
    navigations of the procedure happens, and the calls issued are the
    procedure's calls up to the raising one, each once: nothing is
    tried again. *)
Theorem failure_aborts (w : env) (pw : playwright)
        (i : nat) (c : call) (e : exn) :
  issued (run_in w pw) i c ->
  w (firstn i (calls (run_in w pw))) c = Raise e ->
  result (run_in w pw) = Raised e
  /\ List.length (calls (run_in w pw)) = S i
  /\ (forall j c', i < j -> ~ issued (run_in w pw) j c')
  /\ exists b p, calls (run_in w pw) = firstn (S i) (procedure pw b p).
Proof.
  intros Hc Hraise.
  destruct (run_in_view w pw)
    as (b & p & n & Hn & Hcalls & Hissued & Hpassed & _ & _ & _ & Hend).
  assert (Hin : i = n).
  { destruct (Hissued i c) as [[Hi _] _]; [exact Hc |].
    destruct (Nat.eq_dec i n) as [-> | Hne]; [reflexivity |].
    assert (Hlt : i < n) by lia.
    specialize (Hpassed i c Hlt Hc). unfold passed in Hpassed.
    rewrite Hraise in Hpassed. discriminate. }
  subst i.
  assert (Hres : result (run_in w pw) = Raised e).
  { destruct Hend as [(-> & _ & Hclose) | (c' & e' & Hc' & Hraise' & Hres)].
    - apply Hissued in Hc. destruct Hc as [_ Hc].
      injection Hc as <-. unfold passed in Hclose.
      rewrite Hraise in Hclose. discriminate.
    - unfold issued in Hc, Hc'. rewrite Hc in Hc'. injection Hc' as <-.
      rewrite Hraise in Hraise'. injection Hraise' as <-. exact Hres. }
  split; [exact Hres |].
  split.
  { rewrite Hcalls, length_firstn, procedure_length. lia. }
  split.
  { intros j c' Hj Hc'. apply Hissued in Hc'. lia. }
  exists b, p. exact Hcalls.
Qed.

(** Against the application without a landing route the third assertion
    raises, and the run ends there, after eleven calls. *)
Lemma failure_aborts_witness :
  issued (run_in (Site.browsing Site.no_landing) 0) 10
    (ToBeVisible (get_by_role 1 "heading" "Dashboard"))
  /\ Site.browsing Site.no_landing
       (firstn 10 (calls (run_in (Site.browsing Site.no_landing) 0)))
       (ToBeVisible (get_by_role 1 "heading" "Dashboard"))
     = Raise (AssertionError "Locator expected to be visible")
  /\ result (run_in (Site.browsing Site.no_landing) 0)
     = Raised (AssertionError "Locator expected to be visible")
  /\ List.length (calls (run_in (Site.browsing Site.no_landing) 0)) = 11.
Proof.
  split; [reflexivity |]. split; [reflexivity |].
  destruct (failure_aborts (Site.browsing Site.no_landing) 0 10
              (ToBeVisible (get_by_role 1 "heading" "Dashboard"))
              (AssertionError "Locator expected to be visible")
              eq_refl eq_refl) as (Hres & Hlen & _).
  split; [exact Hres | exact Hlen].
Defined.

(** ** Screenshots *)

(** C3.  In every run a screenshot is taken only at two places: the file
    login-page.png once the login heading assertion has passed, and the file
    dashboard-page.png once the landing heading assertion has passed.  No call
    between the navigation to the dashboard and the navigation to the landing
    page is a screenshot.  On the success path exactly these two files are
    written, in this order; a run that stops early writes a first part of
    them. *)
Theorem screenshots_after_assertions (w : env) (pw : playwright) :
  (forall i p path,
      issued (run_in w pw) i (Screenshot p path) ->
      (path = "jules-scratch/verification/login-page.png"
       /\ i = 4
       /\ issued (run_in w pw) 2 (Goto p "http://localhost:3000/login")
       /\ issued (run_in w pw) 3
            (ToBeVisible (get_by_role p "heading" "Welcome to WealthLog"))
       /\ passed w (run_in w pw) 3
            (ToBeVisible (get_by_role p "heading" "Welcome to WealthLog")))
      \/
      (path = "jules-scratch/verification/dashboard-page.png"
       /\ i = 11
       /\ issued (run_in w pw) 9 (Goto p "http://localhost:3000/landing")
       /\ issued (run_in w pw) 10
            (ToBeVisible (get_by_role p "heading" "Dashboard"))
       /\ passed w (run_in w pw) 10
            (ToBeVisible (get_by_role p "heading" "Dashboard"))))
  /\ (forall j p i c,
         issued (run_in w pw) j (Goto p "http://localhost:3000/dashboard") ->
         j < i ->
         (forall k p', issued (run_in w pw) k
                         (Goto p' "http://localhost:3000/landing") -> i < k) ->
         issued (run_in w pw) i c ->
         is_screenshot c = false)
  /\ (success_path w pw ->
      screenshot_paths (calls (run_in w pw)) =
        [ "jules-scratch/verification/login-page.png";
          "jules-scratch/verification/dashboard-page.png" ])
  /\ (exists k,
         screenshot_paths (calls (run_in w pw)) =
           firstn k [ "jules-scratch/verification/login-page.png";
                      "jules-scratch/verification/dashboard-page.png" ]).
Proof.
  destruct (run_in_view w pw)
    as (b & p0 & n & Hn & Hcalls & Hissued & Hpassed & _ & _ & _ & Hend).
  split; [| split; [| split]].
  - intros i p path Hi.
    pose proof (proj1 (Hissued _ _) Hi) as [Hle Hnth].
    at_position i Hnth.
    + left. repeat split; try (apply Hissued; split; [lia | reflexivity]).
      apply Hpassed; [lia |]. apply Hissued; split; [lia | reflexivity].
    + right. repeat split; try (apply Hissued; split; [lia | reflexivity]).
      apply Hpassed; [lia |]. apply Hissued; split; [lia | reflexivity].
  - intros j p i c Hj Hji Hbefore Hi.
    pose proof (proj1 (Hissued _ _) Hj) as [Hjn Hjnth].
    pose proof (proj1 (Hissued _ _) Hi) as [Hin Hinth].
    at_position j Hjnth.
    assert (Hi9 : i < 9).
    { destruct (Nat.lt_ge_cases i 9) as [H | H]; [exact H |].
      assert (H9 : issued (run_in w pw) 9
                     (Goto p "http://localhost:3000/landing")).
      { apply Hissued. split; [lia | reflexivity]. }
      apply Hbefore in H9. lia. }
    at_position i Hinth; reflexivity.
  - intros Hok.
    destruct Hend as [(-> & _ & _) | (c & e & Hc & Hraise & _)].
    + rewrite Hcalls. reflexivity.
    + apply Hok in Hc. unfold passed in Hc. rewrite Hraise in Hc.
      discriminate.
  - rewrite Hcalls. clear - Hn.
    do 14 (destruct n as [| n]; [first [ now exists 0 | now exists 1
                                       | now exists 2 ] |]).
    lia.
Qed.

(** In the run against the model application the second screenshot is the
    twelfth call, and the landing assertion before it passed. *)
Lemma screenshots_after_assertions_witness :
  issued (run_in (Site.browsing Site.wealthlog) 0) 11
    (Screenshot 1 "jules-scratch/verification/dashboard-page.png")
  /\ issued (run_in (Site.browsing Site.wealthlog) 0) 10
       (ToBeVisible (get_by_role 1 "heading" "Dashboard"))
  /\ passed (Site.browsing Site.wealthlog)
       (run_in (Site.browsing Site.wealthlog) 0) 10
       (ToBeVisible (get_by_role 1 "heading" "Dashboard")).
Proof.
  split; [reflexivity |].
  destruct (proj1 (screenshots_after_assertions
                     (Site.browsing Site.wealthlog) 0)
                  11 1 "jules-scratch/verification/dashboard-page.png"
                  eq_refl)
    as [(_ & H & _) | (_ & _ & _ & H10 & Hok)].
  - discriminate H.
  - split; [exact H10 | exact Hok].
Defined.

(** ** The dashboard step *)

(** C4.  Once the six calls of the login step have passed, the run goes to
    the dashboard URL, on the page of the login step.  In every run, once a
    navigation to the dashboard URL has succeeded, the next call asserts
    that the heading "Welcome to WealthLog" is visible: the very call the
    login step made after its own navigation, on the same page, with the
    same role and name.  When it passes, the next call prints the
    confirmation message. *)
Theorem dashboard_check_reuses_login_heading (w : env) (pw : playwright) :
  ((forall i c, i < 6 -> issued (run_in w pw) i c ->
                passed w (run_in w pw) i c) ->
   exists p,
     issued (run_in w pw) 2 (Goto p "http://localhost:3000/login")
     /\ issued (run_in w pw) 3
          (ToBeVisible (get_by_role p "heading" "Welcome to WealthLog"))
     /\ issued (run_in w pw) 6 (Goto p "http://localhost:3000/dashboard"))
  /\ forall i p,
      issued (run_in w pw) i (Goto p "http://localhost:3000/dashboard") ->
      passed w (run_in w pw) i (Goto p "http://localhost:3000/dashboard") ->
      issued (run_in w pw) (S i)
        (ToBeVisible (get_by_role p "heading" "Welcome to WealthLog"))
      /\ (exists j,
             j < i
             /\ issued (run_in w pw) j (Goto p "http://localhost:3000/login")
             /\ nth_error (calls (run_in w pw)) (S j)
                = nth_error (calls (run_in w pw)) (S i))
      /\ (passed w (run_in w pw) (S i)
            (ToBeVisible (get_by_role p "heading" "Welcome to WealthLog")) ->
          issued (run_in w pw) (S (S i))
            (Print "Redirected to login page from dashboard as expected.")).
Proof.
  split.
  - intros Hlogin.
    destruct (run_reaches w pw 6 ltac:(lia) Hlogin) as [c Hc].
    destruct (run_in_view w pw)
      as (b & p & n & Hn & Hcalls & Hissued & _ & _ & _ & _ & _).
    pose proof (proj1 (Hissued _ _) Hc) as [Hle _].
    exists p. repeat split; issued_here Hissued.
  - intros i p Hi Hok.
    destruct (run_in_view w pw)
      as (b & p0 & n & Hn & Hcalls & Hissued & Hpassed & Hnext & _ & _ & Hend).
    pose proof (proj1 (Hissued _ _) Hi) as [Hle Hnth].
    assert (Hlt : i < 13 -> i < n) by (apply (Hnext _ _ Hi Hok)).
    at_position i Hnth.
    assert (H7 : issued (run_in w pw) 7
                   (ToBeVisible
                      (get_by_role p "heading" "Welcome to WealthLog")))
      by issued_here Hissued.
    split; [exact H7 |]. split.
    + exists 2. split; [lia |]. split; [issued_here Hissued |].
      unfold issued in H7. rewrite H7. issued_here Hissued.
    + intros Hok7.
      assert (H7n : 7 < n) by (apply (Hnext _ _ H7 Hok7); lia).
      issued_here Hissued.
Qed.

(** In the run against the model application the login step passes, and
    the dashboard step follows. *)
Lemma dashboard_check_reuses_login_heading_witness :
  (forall i c,
      i < 6 ->
      issued (run_in (Site.browsing Site.wealthlog) 0) i c ->
      passed (Site.browsing Site.wealthlog)
             (run_in (Site.browsing Site.wealthlog) 0) i c)
  /\ (exists p,
         issued (run_in (Site.browsing Site.wealthlog) 0) 2
           (Goto p "http://localhost:3000/login")
         /\ issued (run_in (Site.browsing Site.wealthlog) 0) 3
              (ToBeVisible (get_by_role p "heading" "Welcome to WealthLog"))
         /\ issued (run_in (Site.browsing Site.wealthlog) 0) 6
              (Goto p "http://localhost:3000/dashboard"))
  /\ issued (run_in (Site.browsing Site.wealthlog) 0) 7
       (ToBeVisible (get_by_role 1 "heading" "Welcome to WealthLog"))
  /\ issued (run_in (Site.browsing Site.wealthlog) 0) 8
       (Print "Redirected to login page from dashboard as expected.").
Proof.
  assert (Hlogin : forall i c,
             i < 6 ->
             issued (run_in (Site.browsing Site.wealthlog) 0) i c ->
             passed (Site.browsing Site.wealthlog)
                    (run_in (Site.browsing Site.wealthlog) 0) i c)
    by (intros i c _; apply wealthlog_success_path).
  destruct (dashboard_check_reuses_login_heading
              (Site.browsing Site.wealthlog) 0) as [Hreach Hstep].
  split; [exact Hlogin |]. split; [exact (Hreach Hlogin) |].
  destruct (Hstep 6 1 eq_refl eq_refl) as (H7 & _ & H8).
  split; [exact H7 | apply H8; reflexivity].
Defined.

(** ** The browser *)

(** C5.  Every run begins by launching one headless browser and launches no
    other.  On the success path the browser that was launched is closed by
    the fourteenth and last call, and closed once.  In every run a call that
    closes the browser is the last call issued, and the browser it closes is
    the one that was launched. *)
Theorem browser_acquired_once_released_last (w : env) (pw : playwright) :
  issued (run_in w pw) 0 (Launch pw true)
  /\ List.length (filter is_launch (calls (run_in w pw))) = 1
  /\ (success_path w pw ->
      exists b,
        w [] (Launch pw true) = Ok b
        /\ issued (run_in w pw) 13 (Close b)
        /\ List.length (calls (run_in w pw)) = 14
        /\ List.length (filter is_close (calls (run_in w pw))) = 1)
  /\ (forall i b,
         issued (run_in w pw) i (Close b) ->
         List.length (calls (run_in w pw)) = S i
         /\ w [] (Launch pw true) = Ok b).
Proof.
  destruct (run_in_view w pw)
    as (b & p & n & Hn & Hcalls & Hissued & Hpassed & Hnext & Hb & _ & Hend).
  split; [issued_here Hissued |]. split; [| split].
  - rewrite Hcalls. clear - Hn.
    do 14 (destruct n as [| n]; [reflexivity |]). lia.
  - intros Hok.
    destruct Hend as [(-> & _ & _) | (c & e & Hc & Hraise & _)].
    + exists b. split; [apply Hb; lia |].
      split; [issued_here Hissued |].
      rewrite Hcalls. split; reflexivity.
    + apply Hok in Hc. unfold passed in Hc. rewrite Hraise in Hc.
      discriminate.
  - intros i b' Hi.
    pose proof (proj1 (Hissued _ _) Hi) as [Hle Hnth].
    at_position i Hnth.
    assert (n = 13) by lia. subst n.
    split; [rewrite Hcalls; reflexivity | apply Hb; lia].
Qed.

(** In the run against the model application the browser is closed by the
    last of the fourteen calls. *)
Lemma browser_acquired_once_released_last_witness :
  issued (run_in (Site.browsing Site.wealthlog) 0) 13 (Close 1)
  /\ List.length (calls (run_in (Site.browsing Site.wealthlog) 0)) = 14
  /\ Site.browsing Site.wealthlog [] (Launch 0 true) = Ok 1.
Proof.
  split; [reflexivity |].
  exact (proj2 (proj2 (proj2 (browser_acquired_once_released_last
                                (Site.browsing Site.wealthlog) 0)))
               13 1 eq_refl).
Defined.

(** ** Navigation before assertion *)

(** C6.  In every first part of the calls of every run, a heading assertion
    comes right after a navigation of the same page, which succeeded, to the
    URL the assertion is a check of: the login URL or the dashboard URL for
    "Welcome to WealthLog", the landing URL for "Dashboard". *)
Theorem navigation_precedes_assertion (w : env) (pw : playwright) :
  forall k i l,
    nth_error (firstn k (calls (run_in w pw))) i = Some (ToBeVisible l) ->
    exists url,
      0 < i
      /\ nth_error (firstn k (calls (run_in w pw))) (i - 1)
         = Some (Goto (loc_page l) url)
      /\ passed w (run_in w pw) (i - 1) (Goto (loc_page l) url)
      /\ In (url, loc_name l)
            [ ("http://localhost:3000/login", "Welcome to WealthLog");
              ("http://localhost:3000/dashboard", "Welcome to WealthLog");
              ("http://localhost:3000/landing", "Dashboard") ].
Proof.
  intros k i l Hi.
  destruct (run_in_view w pw)
    as (b & p & n & Hn & Hcalls & Hissued & Hpassed & _ & _ & _ & Hend).
  rewrite nth_error_firstn in Hi.
  destruct (Nat.ltb_spec i k) as [Hik | Hik]; [| discriminate].
  pose proof (proj1 (Hissued _ _) Hi) as [Hle Hnth].
  assert (Hprev : forall j c, j < i ->
            nth_error (procedure pw b p) j = Some c ->
            nth_error (firstn k (calls (run_in w pw))) j = Some c
            /\ passed w (run_in w pw) j c).
  { intros j c Hj Hc.
    assert (Hjc : issued (run_in w pw) j c) by (apply Hissued; split; [lia | exact Hc]).
    split; [| apply Hpassed; [lia | exact Hjc]].
    rewrite nth_error_firstn.
    destruct (Nat.ltb_spec j k); [exact Hjc | lia]. }
  at_position i Hnth; cbn [loc_page loc_name get_by_role Nat.sub].
  - exists "http://localhost:3000/login".
    destruct (Hprev 2 _ ltac:(lia) eq_refl) as [H1 H2].
    repeat split; try assumption; try lia. cbn. tauto.
  - exists "http://localhost:3000/dashboard".
    destruct (Hprev 6 _ ltac:(lia) eq_refl) as [H1 H2].
    repeat split; try assumption; try lia. cbn. tauto.
  - exists "http://localhost:3000/landing".
    destruct (Hprev 9 _ ltac:(lia) eq_refl) as [H1 H2].
    repeat split; try assumption; try lia. cbn. tauto.
Qed.

(** The landing assertion of the run against the model application. *)
Lemma navigation_precedes_assertion_witness :
  nth_error (firstn 14 (calls (run_in (Site.browsing Site.wealthlog) 0))) 10
  = Some (ToBeVisible (get_by_role 1 "heading" "Dashboard"))
  /\ exists url,
      0 < 10
      /\ nth_error (firstn 14 (calls (run_in (Site.browsing Site.wealthlog) 0)))
                   (10 - 1)
         = Some (Goto 1 url)
      /\ passed (Site.browsing Site.wealthlog)
           (run_in (Site.browsing Site.wealthlog) 0) (10 - 1) (Goto 1 url)
      /\ In (url, "Dashboard")
            [ ("http://localhost:3000/login", "Welcome to WealthLog");
              ("http://localhost:3000/dashboard", "Welcome to WealthLog");
              ("http://localhost:3000/landing", "Dashboard") ].
Proof.
  split; [reflexivity |].
  exact (navigation_precedes_assertion
           (Site.browsing Site.wealthlog) 0 14 10
           (get_by_role 1 "heading" "Dashboard") eq_refl).
Defined.

(** ** The landing step *)

(** C7.  In every run the third navigation, when the run gets to it, goes to
    the landing URL, and once it has succeeded the next call asserts that a
    heading "Dashboard" is visible on that page.  On the success path the
    run gets to both. *)
Theorem third_check_targets_landing (w : env) (pw : playwright) :
  (forall c,
      nth_error (filter is_goto (calls (run_in w pw))) 2 = Some c ->
      exists p,
        c = Goto p "http://localhost:3000/landing"
        /\ issued (run_in w pw) 9 c
        /\ (passed w (run_in w pw) 9 c ->
            issued (run_in w pw) 10
              (ToBeVisible (get_by_role p "heading" "Dashboard"))))
  /\ (success_path w pw ->
      exists p,
        nth_error (filter is_goto (calls (run_in w pw))) 2
        = Some (Goto p "http://localhost:3000/landing")
        /\ issued (run_in w pw) 10
             (ToBeVisible (get_by_role p "heading" "Dashboard"))).
Proof.
  destruct (run_in_view w pw)
    as (b & p & n & Hn & Hcalls & Hissued & Hpassed & Hnext & _ & _ & Hend).
  split.
  - intros c Hc. exists p.
    assert (H9 : 9 <= n /\ c = Goto p "http://localhost:3000/landing").
    { rewrite Hcalls in Hc. clear - Hc Hn.
      do 14 (destruct n as [| n];
             [cbn in Hc; first [discriminate Hc
                               | injection Hc as <-; split; [lia | reflexivity]] |]).
      lia. }
    destruct H9 as [H9 ->].
    assert (Hi : issued (run_in w pw) 9
                   (Goto p "http://localhost:3000/landing"))
      by issued_here Hissued.
    split; [reflexivity |]. split; [exact Hi |].
    intros Hok. assert (9 < n) by (apply (Hnext _ _ Hi Hok); lia).
    issued_here Hissued.
  - intros Hok.
    destruct Hend as [(-> & _ & _) | (c & e & Hc & Hraise & _)].
    + exists p. rewrite Hcalls. split; [reflexivity | issued_here Hissued].
    + apply Hok in Hc. unfold passed in Hc. rewrite Hraise in Hc.
      discriminate.
Qed.

(** The third navigation of the run against the model application. *)
Lemma third_check_targets_landing_witness :
  nth_error (filter is_goto (calls (run_in (Site.browsing Site.wealthlog) 0))) 2
  = Some (Goto 1 "http://localhost:3000/landing")
  /\ exists p,
      Goto 1 "http://localhost:3000/landing"
      = Goto p "http://localhost:3000/landing"
      /\ issued (run_in (Site.browsing Site.wealthlog) 0) 9
           (Goto 1 "http://localhost:3000/landing")
      /\ (passed (Site.browsing Site.wealthlog)
             (run_in (Site.browsing Site.wealthlog) 0) 9
             (Goto 1 "http://localhost:3000/landing") ->
          issued (run_in (Site.browsing Site.wealthlog) 0) 10
            (ToBeVisible (get_by_role p "heading" "Dashboard"))).
Proof.
  split; [reflexivity |].
  exact (proj1 (third_check_targets_landing (Site.browsing Site.wealthlog) 0)
               (Goto 1 "http://localhost:3000/landing") eq_refl).
Defined.

(** ** Determinism *)

(** What the procedure shows outside is one fixed list, whatever the
    Playwright object and the handles. *)
Lemma procedure_actions (pw : playwright) (b : browser) (p : page) :
  map action_of (procedure pw b p) =
    [ Launches true;
      OpensPage;
      Navigates "http://localhost:3000/login";
      Asserts "heading" "Welcome to WealthLog";
      Shoots "jules-scratch/verification/login-page.png";
      Prints "Screenshot of login page taken.";
      Navigates "http://localhost:3000/dashboard";
      Asserts "heading" "Welcome to WealthLog";
      Prints "Redirected to login page from dashboard as expected.";
      Navigates "http://localhost:3000/landing";
      Asserts "heading" "Dashboard";
      Shoots "jules-scratch/verification/dashboard-page.png";
      Prints "Screenshot of dashboard page taken.";
      Closes ].
Proof. reflexivity. Qed.

(** Of two runs whose calls raise at the same steps, the first does not
    stop later than the second. *)
Lemma stops_no_later (w1 w2 : env) (pw1 pw2 : playwright) :
  (forall i c1 c2,
      issued (run_in w1 pw1) i c1 ->
      issued (run_in w2 pw2) i c2 ->
      raises (w1 (firstn i (calls (run_in w1 pw1))) c1)
      = raises (w2 (firstn i (calls (run_in w2 pw2))) c2)) ->
  List.length (calls (run_in w1 pw1)) <= List.length (calls (run_in w2 pw2)).
Proof.
  intros Hsame.
  destruct (run_in_view w1 pw1)
    as (b1 & p1 & n1 & Hn1 & Hcalls1 & Hissued1 & Hpassed1 & _ & _ & _ & _).
  destruct (run_in_view w2 pw2)
    as (b2 & p2 & n2 & Hn2 & Hcalls2 & Hissued2 & _ & _ & _ & _ & Hend2).
  rewrite Hcalls1, Hcalls2, !length_firstn, !procedure_length.
  destruct (Nat.le_gt_cases n1 n2) as [Hle | Hgt]; [lia | exfalso].
  destruct Hend2 as [(-> & _) | (c2 & e & Hc2 & Hraise & _)]; [lia |].
  destruct (nth_error (procedure pw1 b1 p1) n2) as [c1 |] eqn:Hc1.
  - assert (Hi1 : issued (run_in w1 pw1) n2 c1)
      by (apply Hissued1; split; [lia | exact Hc1]).
    pose proof (Hpassed1 n2 c1 Hgt Hi1) as Hok. unfold passed in Hok.
    specialize (Hsame n2 c1 c2 Hi1 Hc2).
    rewrite Hok, Hraise in Hsame. discriminate.
  - apply nth_error_None in Hc1. rewrite procedure_length in Hc1. lia.
Qed.

(** C8.  The procedure takes nothing from outside but the answers to its
    calls, and of them it uses only whether the call raised.  Take two
    runs, with any two Playwright objects and in any two environments, also
    handing out different browser and page handles: when the calls raise
    at the same steps in both, both runs show the same launch flag, URLs,
    assertions, screenshot paths and messages in the same order, and end
    alike.  What a run shows is a first part, as long as the run, of one
    list of literals.  When the same Playwright object is given and the
    answers are the same, handles and exception too, the runs are the same
    call for call. *)
Theorem run_deterministic (w1 w2 : env) (pw1 pw2 : playwright) :
  ((forall i c1 c2,
       issued (run_in w1 pw1) i c1 ->
       issued (run_in w2 pw2) i c2 ->
       raises (w1 (firstn i (calls (run_in w1 pw1))) c1)
       = raises (w2 (firstn i (calls (run_in w2 pw2))) c2)) ->
   map action_of (calls (run_in w1 pw1))
   = map action_of (calls (run_in w2 pw2))
   /\ returned (result (run_in w1 pw1)) = returned (result (run_in w2 pw2)))
  /\ (0 < List.length (calls (run_in w1 pw1))
      /\ map action_of (calls (run_in w1 pw1)) =
           firstn (List.length (calls (run_in w1 pw1)))
             [ Launches true;
               OpensPage;
               Navigates "http://localhost:3000/login";
               Asserts "heading" "Welcome to WealthLog";
               Shoots "jules-scratch/verification/login-page.png";
               Prints "Screenshot of login page taken.";
               Navigates "http://localhost:3000/dashboard";
               Asserts "heading" "Welcome to WealthLog";
               Prints "Redirected to login page from dashboard as expected.";
               Navigates "http://localhost:3000/landing";
               Asserts "heading" "Dashboard";
               Shoots "jules-scratch/verification/dashboard-page.png";
               Prints "Screenshot of dashboard page taken.";
               Closes ])
  /\ (pw1 = pw2 ->
      (forall i c,
          issued (run_in w1 pw1) i c ->
          w1 (firstn i (calls (run_in w1 pw1))) c
          = w2 (firstn i (calls (run_in w1 pw1))) c) ->
      run_in w1 pw1 = run_in w2 pw2).
Proof.
  assert (Hshown : forall w pw,
             0 < List.length (calls (run_in w pw))
             /\ map action_of (calls (run_in w pw)) =
                  firstn (List.length (calls (run_in w pw)))
                         (map action_of (procedure pw 0 0))).
  { intros w pw.
    destruct (run_in_view w pw)
      as (b & p & n & Hn & Hcalls & _).
    rewrite Hcalls, length_firstn, procedure_length.
    split; [lia |].
    rewrite <- firstn_map, !procedure_actions.
    f_equal. lia. }
  split; [| split].
  - intros Hsame.
    assert (Hlen : List.length (calls (run_in w1 pw1))
                   = List.length (calls (run_in w2 pw2))).
    { apply Nat.le_antisymm.
      - apply stops_no_later. exact Hsame.
      - apply stops_no_later. intros i c2 c1 H2 H1.
        symmetry. now apply Hsame. }
    split.
    + rewrite (proj2 (Hshown w1 pw1)), (proj2 (Hshown w2 pw2)), Hlen.
      reflexivity.
    + destruct (run_in_view w1 pw1)
        as (b1 & p1 & n1 & Hn1 & Hcalls1 & Hissued1 & _ & _ & _ & _ & Hend1).
      destruct (run_in_view w2 pw2)
        as (b2 & p2 & n2 & Hn2 & Hcalls2 & Hissued2 & _ & _ & _ & _ & Hend2).
      assert (Hn : n1 = n2).
      { rewrite Hcalls1, Hcalls2, !length_firstn, !procedure_length in Hlen.
        lia. }
      subst n2.
      destruct Hend1 as [(-> & Hres1 & Hclose1)
                        | (c1 & e1 & Hc1 & Hraise1 & Hres1)];
        destruct Hend2 as [(Hn13 & Hres2 & Hclose2)
                          | (c2 & e2 & Hc2 & Hraise2 & Hres2)];
        rewrite Hres1, Hres2; try reflexivity; exfalso.
      * assert (H13 : issued (run_in w1 pw1) 13 (Close b1))
          by issued_here Hissued1.
        specialize (Hsame 13 _ _ H13 Hc2). unfold passed in Hclose1.
        rewrite Hclose1, Hraise2 in Hsame. discriminate.
      * subst n1.
        assert (H13 : issued (run_in w2 pw2) 13 (Close b2))
          by issued_here Hissued2.
        specialize (Hsame 13 _ _ Hc1 H13). unfold passed in Hclose2.
        rewrite Hclose2, Hraise1 in Hsame. discriminate.
  - destruct (Hshown w1 pw1) as [Hpos Hfirst].
    split; [exact Hpos |]. rewrite Hfirst, procedure_actions. reflexivity.
  - intros <- Hsame. unfold run_in.
    apply exec_agree. intros i c _ Hc. now apply Hsame.
Qed.

(** Two browsers that hand out different handles, in front of two
    applications, given two Playwright objects. *)
Lemma run_deterministic_witness :
  (forall i c1 c2,
      issued (run_in (Site.browsing Site.wealthlog) 0) i c1 ->
      issued (run_in (handing_out 7 9 (Site.browsing Site.no_redirect)) 3)
             i c2 ->
      raises (Site.browsing Site.wealthlog
                (firstn i (calls (run_in (Site.browsing Site.wealthlog) 0)))
                c1)
      = raises (handing_out 7 9 (Site.browsing Site.no_redirect)
                  (firstn i
                     (calls (run_in (handing_out 7 9
                                       (Site.browsing Site.no_redirect)) 3)))
                  c2))
  /\ nth_error (calls (run_in (Site.browsing Site.wealthlog) 0)) 2
     = Some (Goto 1 "http://localhost:3000/login")
  /\ nth_error
       (calls (run_in (handing_out 7 9 (Site.browsing Site.no_redirect)) 3)) 2
     = Some (Goto 9 "http://localhost:3000/login")
  /\ map action_of (calls (run_in (Site.browsing Site.wealthlog) 0))
     = map action_of
         (calls (run_in (handing_out 7 9 (Site.browsing Site.no_redirect)) 3))
  /\ returned (result (run_in (Site.browsing Site.wealthlog) 0))
     = returned
         (result (run_in (handing_out 7 9 (Site.browsing Site.no_redirect)) 3)).
Proof.
  assert (H : forall i c1 c2,
             issued (run_in (Site.browsing Site.wealthlog) 0) i c1 ->
             issued (run_in (handing_out 7 9
                               (Site.browsing Site.no_redirect)) 3) i c2 ->
             raises (Site.browsing Site.wealthlog
                       (firstn i
                          (calls (run_in (Site.browsing Site.wealthlog) 0)))
                       c1)
             = raises (handing_out 7 9 (Site.browsing Site.no_redirect)
                         (firstn i
                            (calls (run_in
                                      (handing_out 7 9
                                         (Site.browsing Site.no_redirect))
                                      3)))
                         c2)).
  { intros i c1 c2. unfold issued, run_in.
    by_position i;
      repeat match goal with
             | H : Some _ = Some _ |- _ => injection H as <-
             end; reflexivity. }
  split; [exact H |]. split; [reflexivity |]. split; [reflexivity |].
  exact (proj1 (run_deterministic
                  (Site.browsing Site.wealthlog)
                  (handing_out 7 9 (Site.browsing Site.no_redirect)) 0 3) H).
Defined.

(** ** The confirmation of the dashboard step *)

(** C9.  In every environment, once the calls before the heading assertion
    of the dashboard step have passed, the run has gone to the dashboard URL
    and asserts that the heading "Welcome to WealthLog" is visible on that
    page; it prints "Redirected to login page from dashboard as expected."
    exactly when that assertion passes, and then as the very next call.
    The assertion is the only call between the navigation and the message:
    the step asks the environment for nothing else, so not for the address
    of the page, which may still be the dashboard URL. *)
Theorem dashboard_confirmation_ignores_address (w : env) (pw : playwright) :
  (forall i c, i < 7 -> issued (run_in w pw) i c ->
               passed w (run_in w pw) i c) ->
  exists p,
    issued (run_in w pw) 6 (Goto p "http://localhost:3000/dashboard")
    /\ issued (run_in w pw) 7
         (ToBeVisible (get_by_role p "heading" "Welcome to WealthLog"))
    /\ (passed w (run_in w pw) 7
          (ToBeVisible (get_by_role p "heading" "Welcome to WealthLog"))
        <-> issued (run_in w pw) 8
              (Print "Redirected to login page from dashboard as expected."))
    /\ (forall j,
           issued (run_in w pw) j
             (Print "Redirected to login page from dashboard as expected.") ->
           j = 8)
    /\ forall j c,
        issued (run_in w pw) j c -> 6 < j < 8 ->
        c = ToBeVisible (get_by_role p "heading" "Welcome to WealthLog").
Proof.
  intros Hok.
  destruct (run_reaches w pw 7 ltac:(lia) Hok) as [c7 Hc7].
  destruct (run_in_view w pw)
    as (b & p & n & Hn & Hcalls & Hissued & Hpassed & Hnext & _ & _ & _).
  pose proof (proj1 (Hissued _ _) Hc7) as [Hle _].
  exists p.
  assert (H7 : issued (run_in w pw) 7
                 (ToBeVisible
                    (get_by_role p "heading" "Welcome to WealthLog")))
    by issued_here Hissued.
  split; [issued_here Hissued |]. split; [exact H7 |].
  split; [| split].
  - split.
    + intros Hok7.
      assert (7 < n) by (apply (Hnext _ _ H7 Hok7); lia).
      issued_here Hissued.
    + intros H8. apply Hissued in H8. destruct H8 as [H8 _].
      apply Hpassed; [lia | exact H7].
  - intros j Hj. apply Hissued in Hj. destruct Hj as [_ Hj].
    do 8 (destruct j as [| j]; [cbn in Hj; discriminate Hj |]).
    destruct j as [| j]; [reflexivity |]. exfalso.
    do 5 (destruct j as [| j]; [cbn in Hj; discriminate Hj |]).
    cbn in Hj. destruct j; discriminate Hj.
  - intros j c Hj Hrange.
    assert (j = 7) by lia. subst j.
    apply Hissued in Hj. destruct Hj as [_ Hj].
    injection Hj as <-. reflexivity.
Qed.

(** An application that keeps the page at the dashboard URL, and shows
    the heading there: the message is printed all the same. *)
Lemma dashboard_confirmation_ignores_address_witness :
  (forall i c,
      i < 7 ->
      issued (run_in (Site.browsing Site.no_redirect) 0) i c ->
      passed (Site.browsing Site.no_redirect)
             (run_in (Site.browsing Site.no_redirect) 0) i c)
  /\ Site.location Site.no_redirect
       (firstn 7 (calls (run_in (Site.browsing Site.no_redirect) 0)))
     = Some "http://localhost:3000/dashboard"
  /\ issued (run_in (Site.browsing Site.no_redirect) 0) 8
       (Print "Redirected to login page from dashboard as expected.").
Proof.
  assert (Hok : forall i c,
             i < 7 ->
             issued (run_in (Site.browsing Site.no_redirect) 0) i c ->
             passed (Site.browsing Site.no_redirect)
                    (run_in (Site.browsing Site.no_redirect) 0) i c).
  { intros i c Hi. unfold issued, passed, run_in.
    by_position i;
      match goal with
      | H : Some _ = Some _ |- _ => injection H as <-
      end; reflexivity. }
  split; [exact Hok |]. split; [reflexivity |].
  destruct (dashboard_confirmation_ignores_address
              (Site.browsing Site.no_redirect) 0 Hok)
    as (p & H6 & H7 & Hiff & _).
  apply Hiff.
  unfold issued in H7.
  assert (Hp : p = 1) by (cbv in H7; congruence).
  subst p. reflexivity.
Defined.

(** ** One page *)

(** C10.  Every run launches one browser and opens at most one page, on that
    browser; every navigation, assertion and screenshot of the run is on the
    page that this one call returned.  On the success path one page is
    opened and used by three navigations, three assertions and two
    screenshots. *)
Theorem single_page_throughout (w : env) (pw : playwright) :
  List.length (filter is_launch (calls (run_in w pw))) = 1
  /\ List.length (filter is_new_page (calls (run_in w pw))) <= 1
  /\ (forall i c q,
         issued (run_in w pw) i c ->
         page_of c = Some q ->
         exists b,
           w [] (Launch pw true) = Ok b
           /\ issued (run_in w pw) 1 (NewPage b)
           /\ w [Launch pw true] (NewPage b) = Ok q)
  /\ (success_path w pw ->
      List.length (filter is_new_page (calls (run_in w pw))) = 1
      /\ List.length (filter is_goto (calls (run_in w pw))) = 3
      /\ List.length (filter is_assertion (calls (run_in w pw))) = 3
      /\ List.length (filter is_screenshot (calls (run_in w pw))) = 2).
Proof.
  destruct (run_in_view w pw)
    as (b & p & n & Hn & Hcalls & Hissued & Hpassed & Hnext & Hb & Hp & Hend).
  split; [| split; [| split]].
  - rewrite Hcalls. clear - Hn.
    do 14 (destruct n as [| n]; [reflexivity |]). lia.
  - rewrite Hcalls. clear - Hn.
    do 14 (destruct n as [| n]; [cbn; lia |]). lia.
  - intros i c q Hi Hq.
    pose proof (proj1 (Hissued _ _) Hi) as [Hle Hnth].
    exists b.
    at_position i Hnth; cbn in Hq; try discriminate Hq;
      injection Hq as <-;
      (split; [apply Hb; lia |]);
      (split; [issued_here Hissued | apply Hp; lia]).
  - intros Hok.
    destruct Hend as [(-> & _ & _) | (c & e & Hc & Hraise & _)].
    + rewrite Hcalls. repeat split.
    + apply Hok in Hc. unfold passed in Hc. rewrite Hraise in Hc.
      discriminate.
Qed.

(** The second screenshot of the run against the model application is
    taken on the page the run opened. *)
Lemma single_page_throughout_witness :
  issued (run_in (Site.browsing Site.wealthlog) 0) 11
    (Screenshot 1 "jules-scratch/verification/dashboard-page.png")
  /\ page_of (Screenshot 1 "jules-scratch/verification/dashboard-page.png")
     = Some 1
  /\ exists b,
      Site.browsing Site.wealthlog [] (Launch 0 true) = Ok b
      /\ issued (run_in (Site.browsing Site.wealthlog) 0) 1 (NewPage b)
      /\ Site.browsing Site.wealthlog [Launch 0 true] (NewPage b) = Ok 1.
Proof.
  split; [reflexivity |]. split; [reflexivity |].
  exact (proj1 (proj2 (proj2 (single_page_throughout
                                (Site.browsing Site.wealthlog) 0)))
               11 (Screenshot 1 "jules-scratch/verification/dashboard-page.png")
               1 eq_refl eq_refl).
Defined.

(** * Further properties of the procedure *)

(** ** What a normal return certifies *)

(** A run that returned normally is the whole procedure, and no call of it
    raised. *)
Lemma returned_run (w : env) (pw : playwright) :
  result (run_in w pw) = Returned tt ->
  success_path w pw
  /\ exists b p, calls (run_in w pw) = procedure pw b p.
Proof.
  intros Hret.
  destruct (run_in_view w pw)
    as (b & p & n & Hn & Hcalls & Hissued & Hpassed & _ & _ & _ & Hend).
  destruct Hend as [(-> & _ & Hclose) | (c & e & _ & _ & Hres)];
    [| rewrite Hres in Hret; discriminate].
  split; [| exists b, p; exact Hcalls].
  intros i c Hc.
  destruct (Nat.eq_dec i 13) as [-> | Hne].
  - pose proof (proj1 (Hissued _ _) Hc) as [_ Hnth].
    injection Hnth as <-. exact Hclose.
  - apply Hpassed; [| exact Hc].
    apply Hissued in Hc. lia.
Qed.

(** X1.  A run that returns normally issued all fourteen calls of the
    procedure, and none of them raised: in particular the three heading
    assertions were made and passed. *)
Theorem normal_return_means_all_passed (w : env) (pw : playwright) :
  result (run_in w pw) = Returned tt ->
  success_path w pw
  /\ exists b p,
      calls (run_in w pw) = procedure pw b p
      /\ passed w (run_in w pw) 3
           (ToBeVisible (get_by_role p "heading" "Welcome to WealthLog"))
      /\ passed w (run_in w pw) 7
           (ToBeVisible (get_by_role p "heading" "Welcome to WealthLog"))
      /\ passed w (run_in w pw) 10
           (ToBeVisible (get_by_role p "heading" "Dashboard")).
Proof.
  intros Hret.
  destruct (returned_run w pw Hret) as (Hok & b & p & Hcalls).
  split; [exact Hok |]. exists b, p. split; [exact Hcalls |].
  repeat split; apply Hok; unfold issued; rewrite Hcalls; reflexivity.
Qed.

Lemma normal_return_means_all_passed_witness :
  result (run_in (Site.browsing Site.wealthlog) 0) = Returned tt
  /\ success_path (Site.browsing Site.wealthlog) 0.
Proof.
  split; [reflexivity |].
  exact (proj1 (normal_return_means_all_passed
                  (Site.browsing Site.wealthlog) 0 eq_refl)).
Defined.

(** ** The browser after a failure *)

(** X2.  [run] closes the browser on the success path only.  When a call
    other than [browser.close()] raises after the browser was launched, the
    run holds a browser and issues no call that closes it. *)
Theorem failure_leaves_browser_open (w : env) (pw : playwright)
        (i : nat) (c : call) (e : exn) :
  issued (run_in w pw) i c ->
  w (firstn i (calls (run_in w pw))) c = Raise e ->
  is_launch c = false ->
  is_close c = false ->
  (exists b, w [] (Launch pw true) = Ok b)
  /\ filter is_close (calls (run_in w pw)) = []
  /\ forall j b', ~ issued (run_in w pw) j (Close b').
Proof.
  intros Hc Hraise Hlaunch Hclose.
  destruct (run_in_view w pw)
    as (b & p & n & Hn & Hcalls & Hissued & Hpassed & _ & Hb & _ & Hend).
  pose proof (proj1 (Hissued _ _) Hc) as [Hle Hnth].
  assert (Hin : i = n).
  { destruct (Nat.eq_dec i n) as [-> | Hne]; [reflexivity |].
    assert (Hlt : i < n) by lia.
    specialize (Hpassed i c Hlt Hc). unfold passed in Hpassed.
    rewrite Hraise in Hpassed. discriminate. }
  subst i.
  assert (Hrange : 0 < n < 13).
  { clear - Hnth Hlaunch Hclose Hn.
    do 14 (destruct n as [| n];
           [cbn in Hnth; injection Hnth as <-;
            first [discriminate Hlaunch | discriminate Hclose | lia] |]).
    lia. }
  split; [exists b; apply Hb; lia |].
  assert (Hnone : forall j b', ~ issued (run_in w pw) j (Close b')).
  { intros j b' Hj. apply Hissued in Hj. destruct Hj as [Hjn Hj].
    at_position j Hj. }
  split; [| exact Hnone].
  rewrite Hcalls. clear - Hrange.
  do 14 (destruct n as [| n]; [first [reflexivity | lia] |]). lia.
Qed.

Lemma failure_leaves_browser_open_witness :
  issued (run_in (Site.browsing Site.no_landing) 0) 10
    (ToBeVisible (get_by_role 1 "heading" "Dashboard"))
  /\ (exists b, Site.browsing Site.no_landing [] (Launch 0 true) = Ok b)
  /\ filter is_close (calls (run_in (Site.browsing Site.no_landing) 0)) = [].
Proof.
  split; [reflexivity |].
  destruct (failure_leaves_browser_open
              (Site.browsing Site.no_landing) 0 10
              (ToBeVisible (get_by_role 1 "heading" "Dashboard"))
              (AssertionError "Locator expected to be visible")
              eq_refl eq_refl eq_refl eq_refl) as (Hb & Hnone & _).
  split; [exact Hb | exact Hnone].
Defined.

(** ** Console output *)

(** X3.  A message is printed only after the call it reports has succeeded:
    the two screenshot messages right after the screenshot to the file they
    speak of, the redirect message right after the heading assertion of the
    dashboard step.  The messages of any run are a first part of the three,
    in this order. *)
Theorem messages_follow_what_they_report (w : env) (pw : playwright) :
  (forall i msg,
      issued (run_in w pw) i (Print msg) ->
      exists p,
        (msg = "Screenshot of login page taken."
         /\ issued (run_in w pw) (i - 1)
              (Screenshot p "jules-scratch/verification/login-page.png")
         /\ passed w (run_in w pw) (i - 1)
              (Screenshot p "jules-scratch/verification/login-page.png"))
        \/ (msg = "Redirected to login page from dashboard as expected."
            /\ issued (run_in w pw) (i - 1)
                 (ToBeVisible (get_by_role p "heading" "Welcome to WealthLog"))
            /\ passed w (run_in w pw) (i - 1)
                 (ToBeVisible (get_by_role p "heading" "Welcome to WealthLog"))
            /\ issued (run_in w pw) (i - 2)
                 (Goto p "http://localhost:3000/dashboard"))
        \/ (msg = "Screenshot of dashboard page taken."
            /\ issued (run_in w pw) (i - 1)
                 (Screenshot p "jules-scratch/verification/dashboard-page.png")
            /\ passed w (run_in w pw) (i - 1)
                 (Screenshot p
                    "jules-scratch/verification/dashboard-page.png")))
  /\ exists k,
      printed (calls (run_in w pw)) =
        firstn k [ "Screenshot of login page taken.";
                   "Redirected to login page from dashboard as expected.";
                   "Screenshot of dashboard page taken." ].
Proof.
  destruct (run_in_view w pw)
    as (b & p & n & Hn & Hcalls & Hissued & Hpassed & _ & _ & _ & Hend).
  split.
  - intros i msg Hi. exists p.
    pose proof (proj1 (Hissued _ _) Hi) as [Hle Hnth].
    at_position i Hnth; cbn [Nat.sub].
    + left. repeat split; try issued_here Hissued.
      apply Hpassed; [lia | issued_here Hissued].
    + right; left. repeat split; try issued_here Hissued.
      apply Hpassed; [lia | issued_here Hissued].
    + right; right. repeat split; try issued_here Hissued.
      apply Hpassed; [lia | issued_here Hissued].
  - rewrite Hcalls. clear - Hn.
    do 14 (destruct n as [| n];
           [first [ now exists 0 | now exists 1 | now exists 2
                  | now exists 3 ] |]).
    lia.
Qed.

Lemma messages_follow_what_they_report_witness :
  issued (run_in (Site.browsing Site.wealthlog) 0) 12
    (Print "Screenshot of dashboard page taken.")
  /\ exists p,
      issued (run_in (Site.browsing Site.wealthlog) 0) 11
        (Screenshot p "jules-scratch/verification/dashboard-page.png")
      /\ passed (Site.browsing Site.wealthlog)
           (run_in (Site.browsing Site.wealthlog) 0) 11
           (Screenshot p "jules-scratch/verification/dashboard-page.png").
Proof.
  split; [reflexivity |].
  destruct (proj1 (messages_follow_what_they_report
                     (Site.browsing Site.wealthlog) 0)
                  12 "Screenshot of dashboard page taken." eq_refl)
    as (p & [(H & _) | [(H & _) | (_ & H11 & Hok)]]);
    try discriminate H.
  exists p. split; [exact H11 | exact Hok].
Defined.

(** ** What the procedure tests of an application *)

(** X4.  Run in a browser in front of an application, the procedure returns
    normally exactly when the application shows the heading "Welcome to
    WealthLog" for the login URL and for the dashboard URL, and the heading
    "Dashboard" for the landing URL; otherwise it ends with the assertion's
    exception.  Where the page ends after a navigation has no part in it. *)
Theorem passes_iff_headings_shown (app : Site.site) (pw : playwright) :
  (result (run_in (Site.browsing app) pw) = Returned tt <->
   Site.visible app "http://localhost:3000/login"
                "heading" "Welcome to WealthLog" = true
   /\ Site.visible app "http://localhost:3000/dashboard"
                   "heading" "Welcome to WealthLog" = true
   /\ Site.visible app "http://localhost:3000/landing"
                   "heading" "Dashboard" = true)
  /\ (result (run_in (Site.browsing app) pw) = Returned tt
      \/ result (run_in (Site.browsing app) pw)
         = Raised (AssertionError "Locator expected to be visible")).
Proof.
  unfold run_in, run. cbn -[Site.visible].
  destruct (Site.visible app "http://localhost:3000/login"
                         "heading" "Welcome to WealthLog");
    cbn -[Site.visible];
    [| split; [split; [discriminate | intros (H & _); discriminate H]
              | right; reflexivity]].
  destruct (Site.visible app "http://localhost:3000/dashboard"
                         "heading" "Welcome to WealthLog");
    cbn -[Site.visible];
    [| split; [split; [discriminate | intros (_ & H & _); discriminate H]
              | right; reflexivity]].
  destruct (Site.visible app "http://localhost:3000/landing"
                         "heading" "Dashboard");
    cbn -[Site.visible];
    [| split; [split; [discriminate | intros (_ & _ & H); discriminate H]
              | right; reflexivity]].
  split; [split; [intros _; repeat split | reflexivity] | left; reflexivity].
Qed.

Lemma passes_iff_headings_shown_witness :
  result (run_in (Site.browsing Site.no_redirect) 0) = Returned tt.
Proof.
  exact (proj2 (proj1 (passes_iff_headings_shown Site.no_redirect 0))
               (conj eq_refl (conj eq_refl eq_refl))).
Defined.

(** * The module body *)

Lemma no_exit_among_calls (l : list call) :
  filter is_exit (map Lib l) = [].
Proof.
  induction l as [| c l IH]; [reflexivity | exact IH].
Qed.

(** The call that raises is the last call of the run, and decides how the
    run ends. *)
Lemma raising_call_ends_run (w : env) (pw : playwright)
      (i : nat) (c : call) (e : exn) :
  issued (run_in w pw) i c ->
  w (firstn i (calls (run_in w pw))) c = Raise e ->
  result (run_in w pw) = Raised e
  /\ List.length (calls (run_in w pw)) = S i.
Proof.
  intros Hc Hraise.
  destruct (run_in_view w pw)
    as (b & p & n & Hn & Hcalls & Hissued & Hpassed & _ & _ & _ & Hend).
  assert (Hin : i = n).
  { destruct (Hissued i c) as [[Hi _] _]; [exact Hc |].
    destruct (Nat.eq_dec i n) as [-> | Hne]; [reflexivity |].
    assert (Hlt : i < n) by lia.
    specialize (Hpassed i c Hlt Hc). unfold passed in Hpassed.
    rewrite Hraise in Hpassed. discriminate. }
  subst i. split.
  - destruct Hend as [(-> & _ & Hclose) | (c' & e' & Hc' & Hraise' & Hres)].
    + apply Hissued in Hc. destruct Hc as [_ Hc].
      injection Hc as <-. unfold passed in Hclose.
      rewrite Hraise in Hclose. discriminate.
    + unfold issued in Hc, Hc'. rewrite Hc in Hc'. injection Hc' as <-.
      rewrite Hraise in Hraise'. injection Hraise' as <-. exact Hres.
  - rewrite Hcalls, length_firstn, procedure_length. lia.
Qed.

(** How the module goes once the manager is entered. *)
Lemma main_entered (W : world) (m : manager) (pw : playwright) :
  W [] SyncPlaywright = Ok m ->
  W [SyncPlaywright] (Enter m) = Ok pw ->
  main W =
    let r := run_in (inside W [SyncPlaywright; Enter m]) pw in
    let h := [SyncPlaywright; Enter m] ++ map Lib (calls r) in
    match result r with
    | Returned _ =>
        match W h (Exit m None) with
        | Ok _ => ModuleResult (h ++ [Exit m None]) (Returned tt)
        | Raise e' => ModuleResult (h ++ [Exit m None]) (Raised e')
        end
    | Raised e =>
        match (W h (Exit m (Some e)) : answer bool) with
        | Ok true => ModuleResult (h ++ [Exit m (Some e)]) (Returned tt)
        | Ok false => ModuleResult (h ++ [Exit m (Some e)]) (Raised e)
        | Raise e' => ModuleResult (h ++ [Exit m (Some e)]) (Raised e')
        end
    end.
Proof.
  intros Hm Hpw. unfold main. rewrite Hm.
  unfold with_as. cbn [app]. rewrite Hpw. reflexivity.
Qed.

(** ** Teardown *)

(** X5.  Once the manager is entered, its [__exit__] is called exactly once,
    as the last event of the module, whether [run] returned or raised, and
    it is given the exception [run] ended with, or none.  Between
    [__enter__] and [__exit__] lie the calls of the one run of [run], and
    nothing else. *)
Theorem manager_exit_runs_once (W : world) (m : manager) (pw : playwright) :
  W [] SyncPlaywright = Ok m ->
  W [SyncPlaywright] (Enter m) = Ok pw ->
  events (main W) =
    [SyncPlaywright; Enter m]
    ++ map Lib (calls (run_in (inside W [SyncPlaywright; Enter m]) pw))
    ++ [Exit m
          match result (run_in (inside W [SyncPlaywright; Enter m]) pw) with
          | Returned _ => None
          | Raised e => Some e
          end]
  /\ List.length (filter is_exit (events (main W))) = 1.
Proof.
  intros Hm Hpw. rewrite (main_entered W m pw Hm Hpw). cbv zeta.
  set (r := run_in (inside W [SyncPlaywright; Enter m]) pw).
  assert (Hcount : forall exc,
             List.length
               (filter is_exit
                  (([SyncPlaywright; Enter m] ++ map Lib (calls r))
                   ++ [Exit m exc])) = 1).
  { intros exc. rewrite !filter_app, no_exit_among_calls. reflexivity. }
  destruct (result r) as [u | e].
  - destruct (W ([SyncPlaywright; Enter m] ++ map Lib (calls r))
                (Exit m None)) as [v | e'];
      cbn [events]; (split; [now rewrite <- app_assoc | apply Hcount]).
  - destruct (W ([SyncPlaywright; Enter m] ++ map Lib (calls r))
                (Exit m (Some e)) : answer bool) as [[|] | e'];
      cbn [events]; (split; [now rewrite <- app_assoc | apply Hcount]).
Qed.

Lemma manager_exit_runs_once_witness :
  events (main (world_of (Site.browsing Site.no_landing) false)) =
    [SyncPlaywright; Enter 0]
    ++ map Lib (firstn 11 (procedure 0 1 1))
    ++ [Exit 0 (Some (AssertionError "Locator expected to be visible"))]
  /\ List.length
       (filter is_exit
          (events (main (world_of (Site.browsing Site.no_landing) false))))
     = 1.
Proof.
  exact (manager_exit_runs_once
           (world_of (Site.browsing Site.no_landing) false) 0 0
           eq_refl eq_refl).
Defined.

(** ** A failed check at the level of the module *)

(** X6.  When a call of [run] raises, the module issues no further call of
    the body: the next and last event is [__exit__], given that exception.
    The module then ends with the exception, unless [__exit__] returns a
    true value, which swallows it, or raises one of its own. *)
Theorem failed_call_ends_module (W : world) (m : manager) (pw : playwright)
        (i : nat) (c : call) (e : exn) :
  W [] SyncPlaywright = Ok m ->
  W [SyncPlaywright] (Enter m) = Ok pw ->
  issued (run_in (inside W [SyncPlaywright; Enter m]) pw) i c ->
  inside W [SyncPlaywright; Enter m]
    (firstn i (calls (run_in (inside W [SyncPlaywright; Enter m]) pw))) c
  = Raise e ->
  nth_error (events (main W)) (i + 2) = Some (Lib c)
  /\ nth_error (events (main W)) (i + 3) = Some (Exit m (Some e))
  /\ List.length (events (main W)) = i + 4
  /\ ending (main W) =
       match (W (firstn (i + 3) (events (main W))) (Exit m (Some e))
              : answer bool) with
       | Ok true => Returned tt
       | Ok false => Raised e
       | Raise e' => Raised e'
       end.
Proof.
  intros Hm Hpw Hc Hraise.
  destruct (raising_call_ends_run _ _ _ _ _ Hc Hraise) as [Hres Hlen].
  rewrite (main_entered W m pw Hm Hpw). cbv zeta.
  set (r := run_in (inside W [SyncPlaywright; Enter m]) pw) in *.
  rewrite Hres.
  set (h := [SyncPlaywright; Enter m] ++ map Lib (calls r)).
  assert (Hh : List.length h = i + 3).
  { unfold h. rewrite List.length_app, length_map, Hlen. cbn. lia. }
  assert (Hev : forall o,
             nth_error (h ++ [Exit m (Some e)]) (i + 2) = Some (Lib c)
             /\ nth_error (h ++ [Exit m (Some e)]) (i + 3)
                = Some (Exit m (Some e))
             /\ List.length (h ++ [Exit m (Some e)]) = i + 4
             /\ firstn (i + 3) (h ++ [Exit m (Some e)]) = h
             /\ events (ModuleResult (h ++ [Exit m (Some e)]) o)
                = h ++ [Exit m (Some e)]).
  { intros o. split; [| split; [| split; [| split]]].
    - rewrite nth_error_app1 by lia. unfold h.
      replace (i + 2) with (List.length [SyncPlaywright; Enter m] + i)
        by (cbn; lia).
      rewrite nth_error_app2 by lia.
      replace (_ + i - _) with i by (cbn; lia).
      rewrite nth_error_map. unfold issued in Hc. now rewrite Hc.
    - rewrite nth_error_app2 by lia.
      replace (i + 3 - List.length h) with 0 by lia. reflexivity.
    - rewrite List.length_app, Hh. cbn. lia.
    - rewrite <- Hh, firstn_app, Nat.sub_diag, firstn_all. cbn.
      now rewrite app_nil_r.
    - reflexivity. }
  destruct (W h (Exit m (Some e)) : answer bool) as [[|] | e'] eqn:Hexit;
    cbn [events ending];
    destruct (Hev (Returned tt)) as (H1 & H2 & H3 & H4 & _);
    rewrite H4, Hexit; repeat split; assumption.
Qed.

Lemma failed_call_ends_module_witness :
  nth_error (events (main (world_of (Site.browsing Site.no_landing) false)))
            (10 + 3)
  = Some (Exit 0 (Some (AssertionError "Locator expected to be visible")))
  /\ List.length
       (events (main (world_of (Site.browsing Site.no_landing) false)))
     = 10 + 4
  /\ ending (main (world_of (Site.browsing Site.no_landing) false))
     = Raised (AssertionError "Locator expected to be visible").
Proof.
  destruct (failed_call_ends_module
              (world_of (Site.browsing Site.no_landing) false) 0 0 10
              (ToBeVisible (get_by_role 1 "heading" "Dashboard"))
              (AssertionError "Locator expected to be visible")
              eq_refl eq_refl eq_refl eq_refl) as (_ & H13 & Hlen & Hend).
  split; [exact H13 |]. split; [exact Hlen | exact Hend].
Defined.

(** ** A clean ending *)

(** X7.  With a manager whose [__exit__] never swallows an exception, a
    module that ends without one made every call of the procedure, none of
    which raised, between entering and leaving the manager. *)
Theorem clean_ending_means_all_passed (W : world) :
  (forall h m e, W h (Exit m (Some e)) <> Ok true) ->
  ending (main W) = Returned tt ->
  exists m pw b p,
    W [] SyncPlaywright = Ok m
    /\ W [SyncPlaywright] (Enter m) = Ok pw
    /\ success_path (inside W [SyncPlaywright; Enter m]) pw
    /\ events (main W) =
         [SyncPlaywright; Enter m] ++ map Lib (procedure pw b p)
         ++ [Exit m None].
Proof.
  intros Hkeep Hend.
  destruct (W [] SyncPlaywright) as [m | e] eqn:Hm;
    [| unfold main in Hend; rewrite Hm in Hend; discriminate].
  destruct (W [SyncPlaywright] (Enter m)) as [pw | e] eqn:Hpw;
    [| unfold main, with_as in Hend; rewrite Hm in Hend; cbn [app] in Hend;
       rewrite Hpw in Hend; discriminate].
  exists m, pw.
  rewrite (main_entered W m pw Hm Hpw) in *. cbv zeta in *.
  set (r := run_in (inside W [SyncPlaywright; Enter m]) pw) in *.
  destruct (result r) as [[] | e] eqn:Hres.
  - destruct (returned_run _ _ Hres) as (Hok & b & p & Hcalls).
    exists b, p. fold r in Hcalls. rewrite Hcalls in *.
    repeat split; try assumption.
    destruct (W ([SyncPlaywright; Enter m] ++ map Lib (procedure pw b p))
                (Exit m None)); cbn [events]; now rewrite <- app_assoc.
  - pose proof (Hkeep ([SyncPlaywright; Enter m] ++ map Lib (calls r)) m e)
      as Hno.
    destruct (W ([SyncPlaywright; Enter m] ++ map Lib (calls r))
                (Exit m (Some e)) : answer bool) as [[|] | e'] eqn:Hexit;
      cbn [ending] in Hend; try discriminate Hend.
    exfalso. apply Hno. reflexivity.
Qed.

Lemma clean_ending_means_all_passed_witness :
  ending (main (world_of (Site.browsing Site.wealthlog) false)) = Returned tt
  /\ exists m pw b p,
      world_of (Site.browsing Site.wealthlog) false [] SyncPlaywright = Ok m
      /\ world_of (Site.browsing Site.wealthlog) false
           [SyncPlaywright] (Enter m) = Ok pw
      /\ success_path
           (inside (world_of (Site.browsing Site.wealthlog) false)
                   [SyncPlaywright; Enter m]) pw
      /\ events (main (world_of (Site.browsing Site.wealthlog) false)) =
           [SyncPlaywright; Enter m] ++ map Lib (procedure pw b p)
           ++ [Exit m None].
Proof.
  split; [reflexivity |].
  apply (clean_ending_means_all_passed
           (world_of (Site.browsing Site.wealthlog) false)).
  - intros h m e. discriminate.
  - reflexivity.
Defined.

(** ** Nothing outside the manager *)

(** X8.  Every call of the body lies strictly between [__enter__], the
    second event of the module, and [__exit__], its last event.  A module in
    which [sync_playwright()] or [__enter__] raises makes no call of [run]:
    no browser is launched. *)
Theorem calls_only_inside_manager (W : world) (i : nat) (c : call) :
  nth_error (events (main W)) i = Some (Lib c) ->
  exists m exc,
    nth_error (events (main W)) 1 = Some (Enter m)
    /\ 1 < i
    /\ S i < List.length (events (main W))
    /\ nth_error (events (main W)) (List.length (events (main W)) - 1)
       = Some (Exit m exc).
Proof.
  intros Hi.
  destruct (W [] SyncPlaywright) as [m | e] eqn:Hm;
    [| unfold main in Hi; rewrite Hm in Hi;
       destruct i as [| [| i]]; discriminate Hi].
  destruct (W [SyncPlaywright] (Enter m)) as [pw | e] eqn:Hpw;
    [| unfold main, with_as in Hi; rewrite Hm in Hi; cbn [app] in Hi;
       rewrite Hpw in Hi; destruct i as [| [| [| i]]]; discriminate Hi].
  assert (Hshape : exists exc,
             events (main W) =
               [SyncPlaywright; Enter m]
               ++ map Lib (calls
                             (run_in (inside W [SyncPlaywright; Enter m]) pw))
               ++ [Exit m exc]).
  { rewrite (main_entered W m pw Hm Hpw). cbv zeta.
    set (r := run_in (inside W [SyncPlaywright; Enter m]) pw).
    destruct (result r) as [u | e].
    - exists None.
      destruct (W ([SyncPlaywright; Enter m] ++ map Lib (calls r))
                  (Exit m None)); cbn [events]; now rewrite <- app_assoc.
    - exists (Some e).
      destruct (W ([SyncPlaywright; Enter m] ++ map Lib (calls r))
                  (Exit m (Some e)) : answer bool) as [[|] | e'];
        cbn [events]; now rewrite <- app_assoc. }
  destruct Hshape as [exc Hev]. exists m, exc. rewrite Hev in *.
  set (l := calls (run_in (inside W [SyncPlaywright; Enter m]) pw)) in *.
  assert (Hlen : List.length
                   ([SyncPlaywright; Enter m] ++ map Lib l ++ [Exit m exc])
                 = List.length l + 3).
  { rewrite !List.length_app, length_map. cbn. lia. }
  rewrite Hlen. split; [reflexivity |].
  destruct i as [| [| i]]; try discriminate Hi.
  cbn [app nth_error] in Hi.
  assert (Hil : i < List.length l).
  { destruct (Nat.lt_ge_cases i (List.length l)) as [H | H]; [exact H |].
    rewrite nth_error_app2 in Hi by (rewrite length_map; lia).
    rewrite length_map in Hi.
    destruct (i - List.length l) as [| [| k]]; discriminate Hi. }
  split; [lia |]. split; [lia |].
  replace (List.length l + 3 - 1) with (2 + List.length l) by lia.
  cbn [app nth_error Nat.add].
  rewrite nth_error_app2 by (rewrite length_map; lia).
  rewrite length_map, Nat.sub_diag. reflexivity.
Qed.

Lemma calls_only_inside_manager_witness :
  nth_error (events (main (world_of (Site.browsing Site.wealthlog) false))) 2
  = Some (Lib (Launch 0 true))
  /\ exists m exc,
      nth_error
        (events (main (world_of (Site.browsing Site.wealthlog) false))) 1
      = Some (Enter m)
      /\ 1 < 2
      /\ 3 < List.length
               (events (main (world_of (Site.browsing Site.wealthlog) false)))
      /\ nth_error
           (events (main (world_of (Site.browsing Site.wealthlog) false)))
           (List.length
              (events (main (world_of (Site.browsing Site.wealthlog) false)))
            - 1)
         = Some (Exit m exc).
Proof.
  split; [reflexivity |].
  exact (calls_only_inside_manager
           (world_of (Site.browsing Site.wealthlog) false) 2
           (Launch 0 true) eq_refl).
Defined.

Example module_without_driver :
  main no_driver
  = ModuleResult [SyncPlaywright; Enter 0]
                 (Raised (Error "Executable doesn't exist")).
Proof. reflexivity. Qed.
